(** * MelfaRobot: the control-state protocol of the robot session

    A shallow embedding of [src/MelfaRobot.py].  The Python object is a
    record of its four attributes; its methods are functions in a small
    state-and-exception monad over the pair (object, world), where the world
    holds the state of the TCP client and the chronological list of the
    calls the methods made on it.  A raised exception keeps the state
    reached so far, as in Python. *)

From Stdlib Require Import ZArith List String.
From stdpp Require Import base tactics option list strings pretty numbers gmap.

Local Open Scope Z_scope.

(** ** Exceptions *)

(** [TypeError] is what [__init__] raises, and what Python raises when a
    method calls an attribute that is not callable; whatever the TCP client
    raises from inside [send] or [receive] is carried by [TransportError]. *)
Inductive Exn : Type :=
  | TypeError (msg : string)
  | TransportError (e : string).

(** Outcome of one call [self.tcp.send(...)] or [self.tcp.receive()]: the
    client's method raises, or returns, or the attribute that is called is
    not a callable at all. *)
Inductive Outcome (A : Type) : Type :=
  | Raises (e : string)
  | Returns (a : A)
  | NotCallable.
Arguments Raises {A} e.
Arguments Returns {A} a.
Arguments NotCallable {A}.

(** The [TypeError] of calling what is not callable. *)
Definition not_callable : Exn := TypeError "object is not callable".

(** ** The command catalogue

    [MelfaCmd] is imported by the source but is not part of it: its constants
    are taken as a parameter, six command strings and the settle time.  The
    settle time is a duration in seconds, hence positive: [time.sleep]
    accepts it and does not raise. *)
Record Catalog : Type := {
  COM_OPEN : string;
  COM_CLOSE : string;
  CNTL_ON : string;
  CNTL_OFF : string;
  SRV_ON : string;
  SRV_OFF : string;
  SERVO_INIT_SEC : Qp
}.

(** The six command strings are pairwise different. *)
Definition distinct_cmds (c : Catalog) : Prop :=
  NoDup [COM_OPEN c; CNTL_ON c; SRV_ON c; SRV_OFF c; CNTL_OFF c; COM_CLOSE c].

(** ** State and exception monad *)

Definition Eff (S A : Type) : Type := S → S * (Exn + A).

Global Instance Eff_ret {S} : MRet (Eff S) := λ A a s, (s, inr a).
Global Instance Eff_bind {S} : MBind (Eff S) := λ A B f m s,
  match m s with
  | (s', inl e) => (s', inl e)
  | (s', inr a) => f a s'
  end.
Definition raise {S A} (e : Exn) : Eff S A := λ s, (s, inl e).

(** ** Device identifiers *)

(** Modelled from the spec: [validate_id] of [src/clients/ComClient.py], a
    file that is not among the sources; only its test is.  The spec gives it
    as the pure function [validate_id(x) = 0 ≤ x ≤ 65535]. *)
Definition validate_id (x : Z) : bool := (0 <=? x) && (x <=? 65535).

(** ** The robot *)

(** Python's [range(a, b)]. *)
Definition range (a b : Z) : list Z := seqZ a (b - a).

Section MelfaRobot.

Context {T : Type}.
Variable MelfaCmd : Catalog.

Definition SendFn : Type := string → T → T * Outcome unit.
Definition ReceiveFn : Type := T → T * Outcome string.

(** The argument [tcp_client] of the constructor: any object, which has an
    attribute [send] or [receive] or has not.  An attribute that is there is
    given by what calling it does; it need not be callable ([send = None]
    has every call end in [NotCallable]). *)
Record PyObject : Type := {
  attr_send : option SendFn;
  attr_receive : option ReceiveFn
}.

Definition hasattr_send (o : PyObject) : bool := bool_decide (is_Some (attr_send o)).
Definition hasattr_receive (o : PyObject) : bool := bool_decide (is_Some (attr_receive o)).

(** What [self.tcp] is once the constructor has accepted it: an object with
    both attributes, callable or not. *)
Record TCPClient : Type := {
  send : SendFn;
  receive : ReceiveFn
}.

Inductive Event : Type :=
  | EvSend (msg : string)
  | EvReceive
  | EvSleep (secs : Qp).

Record World : Type := {
  chan : T;
  calls : list Event
}.

Record MelfaRobot : Type := {
  tcp : TCPClient;
  joints : gset string;
  servo : bool;
  com_ctrl : bool
}.

Definition State : Type := MelfaRobot * World.

Definition __init__ (tcp_client : PyObject) (number_axes : Z) : Eff World MelfaRobot :=
  match attr_send tcp_client, attr_receive tcp_client with
  | Some snd_fn, Some rcv_fn =>
      if negb (number_axes >? 0) then
        raise (TypeError "Illegal number of axes.")
      else
        mret {| tcp := {| send := snd_fn; receive := rcv_fn |};
                joints := list_to_set ((λ i, "J" +:+ pretty i) <$> range 1 (number_axes + 1));
                servo := false;
                com_ctrl := false |}
  | _, _ => raise (TypeError "TCP-client does not implement required methods.")
  end.

(** [self.tcp.send(msg)] *)
Definition tcp_send (msg : string) : Eff State unit := λ st,
  let r := send (tcp st.1) msg (chan st.2) in
  ((st.1, {| chan := r.1; calls := calls st.2 ++ [EvSend msg] |}),
   match r.2 with
   | Raises e => inl (TransportError e)
   | Returns _ => inr tt
   | NotCallable => inl not_callable
   end).

(** [self.tcp.receive()] *)
Definition tcp_receive : Eff State string := λ st,
  let r := receive (tcp st.1) (chan st.2) in
  ((st.1, {| chan := r.1; calls := calls st.2 ++ [EvReceive] |}),
   match r.2 with
   | Raises e => inl (TransportError e)
   | Returns data => inr data
   | NotCallable => inl not_callable
   end).

(** [time.sleep(secs)] *)
Definition sleep (secs : Qp) : Eff State unit := λ st,
  ((st.1, {| chan := chan st.2; calls := calls st.2 ++ [EvSleep secs] |}), inr tt).

(** [self.com_ctrl = b] *)
Definition set_com_ctrl (b : bool) : Eff State unit := λ st,
  (({| tcp := tcp st.1; joints := joints st.1; servo := servo st.1; com_ctrl := b |},
    st.2), inr tt).

(** [self.servo = b] *)
Definition set_servo (b : bool) : Eff State unit := λ st,
  (({| tcp := tcp st.1; joints := joints st.1; servo := b; com_ctrl := com_ctrl st.1 |},
    st.2), inr tt).

Definition change_communication_state (activate : bool) : Eff State unit :=
  (if activate then
     tcp_send (COM_OPEN MelfaCmd) ;;
     tcp_receive ;;
     tcp_send (CNTL_ON MelfaCmd) ;;
     tcp_receive ;;
     mret tt
   else
     tcp_send (CNTL_OFF MelfaCmd) ;;
     tcp_receive ;;
     tcp_send (COM_CLOSE MelfaCmd) ;;
     tcp_receive ;;
     mret tt) ;;
  set_com_ctrl activate.

(** The body of [change_servo_state].  [sleep] is the name the module
    imports from [time]; the body calls whatever that name is bound to when
    it runs, which a test replaces by a double. *)
Definition change_servo_state_with (sleep : Qp → Eff State unit) (activate : bool)
    : Eff State unit :=
  (if activate then
     tcp_send (SRV_ON MelfaCmd) ;;
     tcp_receive ;;
     mret tt
   else
     tcp_send (SRV_OFF MelfaCmd) ;;
     tcp_receive ;;
     mret tt) ;;
  sleep (SERVO_INIT_SEC MelfaCmd) ;;
  set_servo activate.

(** [change_servo_state] with [time.sleep] itself. *)
Definition change_servo_state (activate : bool) : Eff State unit :=
  change_servo_state_with sleep activate.

Definition reset_speed_factors : Eff State unit := mret tt.

Definition go_safe_pos : Eff State unit := mret tt.

Definition linear_move_poll : Eff State unit := mret tt.

Definition circular_move_poll (is_clockwise : bool) : Eff State unit := mret tt.

(** The body of [start].  [self.go_safe_pos()] is looked up on [self] when
    the body runs: the body takes the method that is found, so that a class
    that overrides [go_safe_pos] runs this same body. *)
Definition start_with (go_safe_pos : Eff State unit) (safe_return : bool)
    : Eff State unit :=
  change_communication_state true ;;
  change_servo_state true ;;
  (if safe_return then go_safe_pos else mret tt).

(** [start] on a [MelfaRobot] itself, whose [go_safe_pos] is the stub. *)
Definition start (safe_return : bool) : Eff State unit :=
  start_with go_safe_pos safe_return.

(** The body of [shutdown], with [self.go_safe_pos] as for [start_with]. *)
Definition shutdown_with (go_safe_pos : Eff State unit) (safe_return : bool)
    : Eff State unit :=
  (if safe_return then go_safe_pos else mret tt) ;;
  change_servo_state false ;;
  change_communication_state false.

(** [shutdown] on a [MelfaRobot] itself. *)
Definition shutdown (safe_return : bool) : Eff State unit :=
  shutdown_with go_safe_pos safe_return.

Definition maintenance : Eff State unit :=
  change_communication_state true.

End MelfaRobot.

(** ** Callers *)

(** One method call on the robot, as a caller writes it. *)
Inductive Call : Type :=
  | CallStart (safe_return : bool)
  | CallShutdown (safe_return : bool)
  | CallMaintenance
  | CallChangeCommunicationState (activate : bool)
  | CallChangeServoState (activate : bool)
  | CallResetSpeedFactors
  | CallGoSafePos
  | CallLinearMovePoll
  | CallCircularMovePoll (is_clockwise : bool).

Section Callers.

Context {T : Type}.
Variable MelfaCmd : Catalog.

Definition invoke (c : Call) : Eff (State (T:=T)) unit :=
  match c with
  | CallStart safe_return => start MelfaCmd safe_return
  | CallShutdown safe_return => shutdown MelfaCmd safe_return
  | CallMaintenance => maintenance MelfaCmd
  | CallChangeCommunicationState activate => change_communication_state MelfaCmd activate
  | CallChangeServoState activate => change_servo_state MelfaCmd activate
  | CallResetSpeedFactors => reset_speed_factors
  | CallGoSafePos => go_safe_pos
  | CallLinearMovePoll => linear_move_poll
  | CallCircularMovePoll is_clockwise => circular_move_poll is_clockwise
  end.

(** A caller that makes the calls one after the other, catching what each
    raises: the state after the last call, and what each call gave. *)
Fixpoint run_calls (cs : list Call) (st : State (T:=T)) : State (T:=T) * list (Exn + unit) :=
  match cs with
  | [] => (st, [])
  | c :: cs' =>
      let r := invoke c st in
      let r' := run_calls cs' r.1 in
      (r'.1, r.2 :: r'.2)
  end.

End Callers.

Section Observations.

Context {T : Type}.

(** The messages handed to [send], in order. *)
Fixpoint sent (evs : list (Event)) : list string :=
  match evs with
  | [] => []
  | EvSend msg :: evs' => msg :: sent evs'
  | _ :: evs' => sent evs'
  end.

(** A client none of whose calls raises. *)
Definition reliable (c : TCPClient (T:=T)) : Prop :=
  (∀ msg t, (send c msg t).2 = Returns tt) ∧
  (∀ t, ∃ data, (receive c t).2 = Returns data).

(** Two clients that behave alike from related states, except for the bytes
    [receive] returns: [send] raises or returns alike, and [receive] returns
    in both, with whatever data. *)
Definition same_but_payload (R : T → T → Prop) (c1 c2 : TCPClient (T:=T)) : Prop :=
  (∀ msg t1 t2, R t1 t2 →
     R (send c1 msg t1).1 (send c2 msg t2).1 ∧ (send c1 msg t1).2 = (send c2 msg t2).2) ∧
  (∀ t1 t2, R t1 t2 →
     R (receive c1 t1).1 (receive c2 t2).1 ∧
     ∃ d1 d2, (receive c1 t1).2 = Returns d1 ∧ (receive c2 t2).2 = Returns d2).

(** A client whose [send] and [receive] are callable. *)
Definition callable (c : TCPClient (T:=T)) : Prop :=
  (∀ msg t, (send c msg t).2 ≠ NotCallable) ∧
  (∀ t, (receive c t).2 ≠ NotCallable).

(** A method keeps the client and the joints of the robot, and over a
    callable client it raises no [TypeError]. *)
Definition frames {A} (m : Eff (State (T:=T)) A) : Prop :=
  ∀ st, tcp (m st).1.1 = tcp st.1 ∧ joints (m st).1.1 = joints st.1 ∧
        (callable (tcp st.1) → ∀ msg, (m st).2 ≠ inl (TypeError msg)).

(** Two states, one per run: robots over the clients [c1] and [c2] with the
    same flags and joints, client states related by [R], and the same calls
    made so far. *)
Definition agree (R : T → T → Prop) (c1 c2 : TCPClient (T:=T))
    (st1 st2 : State (T:=T)) : Prop :=
  tcp st1.1 = c1 ∧ tcp st2.1 = c2 ∧
  servo st1.1 = servo st2.1 ∧ com_ctrl st1.1 = com_ctrl st2.1 ∧
  joints st1.1 = joints st2.1 ∧
  R (chan st1.2) (chan st2.2) ∧ calls st1.2 = calls st2.2.

(** Two results that are both the same exception, or both a return. *)
Definition alike {A} (x y : Exn + A) : Prop :=
  match x, y with
  | inl e1, inl e2 => e1 = e2
  | inr _, inr _ => True
  | _, _ => False
  end.

(** Two computations that take agreeing states to agreeing states, with
    alike results. *)
Definition lockstep {A} (R : T → T → Prop) (c1 c2 : TCPClient (T:=T))
    (m1 m2 : Eff (State (T:=T)) A) : Prop :=
  ∀ st1 st2, agree R c1 c2 st1 st2 →
    agree R c1 c2 (m1 st1).1 (m2 st2).1 ∧ alike (m1 st1).2 (m2 st2).2.

(** The robot with its two flags replaced. *)
Definition with_flags (r : MelfaRobot (T:=T)) (srv com : bool) : MelfaRobot :=
  {| tcp := tcp r; joints := joints r; servo := srv; com_ctrl := com |}.

End Observations.

(** ** Concrete clients and catalogue, for examples *)

Definition demo_cmd : Catalog :=
  {| COM_OPEN := "OPEN"; COM_CLOSE := "CLOSE"; CNTL_ON := "CNTLON";
     CNTL_OFF := "CNTLOFF"; SRV_ON := "SRVON"; SRV_OFF := "SRVOFF";
     SERVO_INIT_SEC := pos_to_Qp 5 |}.

(** A client over a counter of the calls made on it; it echoes nothing and
    never raises. *)
Definition echo_send : SendFn (T:=nat) := λ msg n, (S n, Returns tt).
Definition echo_receive (data : string) : ReceiveFn (T:=nat) := λ n, (S n, Returns data).
Definition echo_client (data : string) : PyObject (T:=nat) :=
  {| attr_send := Some echo_send; attr_receive := Some (echo_receive data) |}.

(** A client whose [send] raises from the [k]-th call made on it onwards. *)
Definition flaky_send (k : nat) : SendFn (T:=nat) := λ msg n,
  (S n, if (k <=? n)%nat then Raises "connection lost" else Returns tt).
Definition flaky_client (k : nat) : PyObject (T:=nat) :=
  {| attr_send := Some (flaky_send k); attr_receive := Some (echo_receive "QoK") |}.

(** A client whose [receive] raises from the [k]-th call made on it onwards. *)
Definition deaf_receive (k : nat) : ReceiveFn (T:=nat) := λ n,
  (S n, if (k <=? n)%nat then Raises "timed out" else Returns "QoK").
Definition deaf_client (k : nat) : PyObject (T:=nat) :=
  {| attr_send := Some echo_send; attr_receive := Some (deaf_receive k) |}.

(** An object without [receive]. *)
Definition mute_object : PyObject (T:=nat) :=
  {| attr_send := Some echo_send; attr_receive := None |}.


Definition world0 : World (T:=nat) := {| chan := 0%nat; calls := [] |}.

(** The robot [__init__] returns for an object that has both methods and a
    positive number of axes. *)
Definition fresh_robot (o_send : SendFn (T:=nat)) (o_receive : ReceiveFn (T:=nat))
    (number_axes : Z) : MelfaRobot (T:=nat) :=
  {| tcp := {| send := o_send; receive := o_receive |};
     joints := list_to_set ((λ i, "J" +:+ pretty i) <$> range 1 (number_axes + 1));
     servo := false;
     com_ctrl := false |}.

Definition echo_robot (data : string) : MelfaRobot (T:=nat) :=
  fresh_robot echo_send (echo_receive data) 6.
Definition flaky_robot (k : nat) : MelfaRobot (T:=nat) :=
  fresh_robot (flaky_send k) (echo_receive "QoK") 6.
Definition deaf_robot (k : nat) : MelfaRobot (T:=nat) :=
  fresh_robot echo_send (deaf_receive k) 6.

Definition none_robot : MelfaRobot (T:=nat) :=
  fresh_robot (λ _ n, (n, NotCallable)) (λ n, (n, NotCallable)) 6.

(** A [go_safe_pos] that moves: it sends a command and reads the answer. *)
Definition move_home : Eff (State (T:=nat)) unit :=
  tcp_send "HOME" ;; tcp_receive ;; mret tt.

(** A [go_safe_pos] that raises before it sends anything. *)
Definition move_refused : Eff (State (T:=nat)) unit :=
  raise (TransportError "no safe position").

(** A double of [sleep] that is interrupted. *)
Definition sleep_interrupted (secs : Qp) : Eff (State (T:=nat)) unit :=
  raise (TransportError "interrupted").

(** The state a fresh robot is in after one [start()] from [world0]. *)
Definition started (r : MelfaRobot (T:=nat)) : State (T:=nat) :=
  (start demo_cmd true (r, world0)).1.

(** ** Shapes of the call log, and safe calls *)

(** Every [send] is the last call or is followed at once by a [receive], and
    no [receive] comes without its [send]. *)
Fixpoint half_duplex (evs : list Event) : bool :=
  match evs with
  | [] => true
  | EvSend _ :: evs' =>
      match evs' with
      | [] => true
      | EvReceive :: evs'' => half_duplex evs''
      | _ => false
      end
  | EvReceive :: _ => false
  | EvSleep _ :: evs' => half_duplex evs'
  end.

(** A call on the client, as opposed to a sleep. *)
Definition is_client_call (ev : Event) : bool :=
  match ev with
  | EvSleep _ => false
  | _ => true
  end.



(** The flags [(servo, com_ctrl)] a call leaves when it returns: the state
    machine the methods are compared with. *)
Definition flags_after (call : Call) (flags : bool * bool) : bool * bool :=
  match call with
  | CallStart _ => (true, true)
  | CallShutdown _ => (false, false)
  | CallMaintenance => (flags.1, true)
  | CallChangeCommunicationState activate => (flags.1, activate)
  | CallChangeServoState activate => (activate, flags.2)
  | _ => flags
  end.

(** What a call on the client makes the method raise, if anything. *)
Definition raised {A} (o : Outcome A) : option Exn :=
  match o with
  | Raises e => Some (TransportError e)
  | Returns _ => None
  | NotCallable => Some not_callable
  end.

(** The first exception of a series of calls. *)
Fixpoint first_raised (os : list (option Exn)) : option Exn :=
  match os with
  | [] => None
  | Some e :: _ => Some e
  | None :: os' => first_raised os'
  end.

(** What the two calls of [change_servo_state(b)] on the client give, each
    made in the client state the one before left. *)
Definition servo_outcomes {T} (cat : Catalog) (b : bool)
    (r : MelfaRobot (T:=T)) (w : World (T:=T)) : list (option Exn) :=
  let o1 := send (tcp r) (if b then SRV_ON cat else SRV_OFF cat) (chan w) in
  let o2 := receive (tcp r) o1.1 in
  [raised o1.2; raised o2.2].

(** The same for the four calls of [change_communication_state(b)]. *)
Definition com_outcomes {T} (cat : Catalog) (b : bool)
    (r : MelfaRobot (T:=T)) (w : World (T:=T)) : list (option Exn) :=
  let o1 := send (tcp r) (if b then COM_OPEN cat else CNTL_OFF cat) (chan w) in
  let o2 := receive (tcp r) o1.1 in
  let o3 := send (tcp r) (if b then CNTL_ON cat else COM_CLOSE cat) o2.1 in
  let o4 := receive (tcp r) o3.1 in
  [raised o1.2; raised o2.2; raised o3.2; raised o4.2].

(** ** The port check of the tests *)

(** What [serial.tools.list_ports.comports()] yields for a port, as far as
    the tests read it. *)
Record ListPortInfo : Type := {
  device : string;
  description : string
}.

(** Python's [needle in hay] on strings. *)
Fixpoint contains (needle hay : string) : bool :=
  String.prefix needle hay ||
  match hay with
  | EmptyString => false
  | String _ hay' => contains needle hay'
  end.

(** [validate_virtual_port_win] of [test/test_ComClient.py]; the enumeration
    [comports()] is an argument. *)
Fixpoint validate_virtual_port_win (comports : list ListPortInfo) (port_name : string)
    : bool :=
  match comports with
  | [] => false
  | dev :: comports' =>
      if bool_decide (port_name = device dev) && contains "com0com" (description dev)
      then true
      else validate_virtual_port_win comports' port_name
  end.

(** ** How the monad and the primitive calls run *)

Lemma bind_returns {S A B} (m : Eff S A) (f : A → Eff S B) s s' a :
  m s = (s', inr a) → (m ≫= f) s = f a s'.
Proof. intros Hm. unfold mbind, Eff_bind. by rewrite Hm. Qed.

Lemma bind_raises {S A B} (m : Eff S A) (f : A → Eff S B) s s' e :
  m s = (s', inl e) → (m ≫= f) s = (s', inl e).
Proof. intros Hm. unfold mbind, Eff_bind. by rewrite Hm. Qed.

Lemma bind_assoc {S A B C} (m : Eff S A) (f : A → Eff S B) (g : B → Eff S C) s :
  ((m ≫= f) ≫= g) s = (m ≫= λ a, f a ≫= g) s.
Proof. unfold mbind, Eff_bind. by destruct (m s) as [s' [e|a]]. Qed.

Lemma bind_ret_l {S A B} (a : A) (f : A → Eff S B) s : (mret a ≫= f) s = f a s.
Proof. reflexivity. Qed.

Section Steps.

Context {T : Type}.
Implicit Types (r : MelfaRobot (T:=T)) (w : World (T:=T)).

Lemma tcp_send_returns r w msg t' u :
  send (tcp r) msg (chan w) = (t', Returns u) →
  tcp_send msg (r, w) = ((r, {| chan := t'; calls := calls w ++ [EvSend msg] |}), inr tt).
Proof. intros H. unfold tcp_send. simpl. by rewrite H. Qed.

Lemma tcp_send_raises r w msg t' e :
  send (tcp r) msg (chan w) = (t', Raises e) →
  tcp_send msg (r, w)
  = ((r, {| chan := t'; calls := calls w ++ [EvSend msg] |}), inl (TransportError e)).
Proof. intros H. unfold tcp_send. simpl. by rewrite H. Qed.

Lemma tcp_receive_returns r w t' data :
  receive (tcp r) (chan w) = (t', Returns data) →
  tcp_receive (r, w) = ((r, {| chan := t'; calls := calls w ++ [EvReceive] |}), inr data).
Proof. intros H. unfold tcp_receive. simpl. by rewrite H. Qed.

Lemma tcp_receive_raises r w t' e :
  receive (tcp r) (chan w) = (t', Raises e) →
  tcp_receive (r, w)
  = ((r, {| chan := t'; calls := calls w ++ [EvReceive] |}), inl (TransportError e)).
Proof. intros H. unfold tcp_receive. simpl. by rewrite H. Qed.

End Steps.

(** Runs a method body one call at a time, with the outcomes of the client's
    calls taken from the hypotheses. *)
Ltac step :=
  rewrite ?bind_assoc, ?bind_ret_l;
  first
    [ erewrite bind_returns; [| first [ eapply tcp_send_returns; eassumption
                                      | eapply tcp_receive_returns; eassumption
                                      | reflexivity ] ]
    | erewrite bind_raises; [| first [ eapply tcp_send_raises; eassumption
                                     | eapply tcp_receive_raises; eassumption ] ] ];
  simpl chan; simpl calls; simpl tcp.

(** Splits on what each call of the client gives. *)
Ltac client_cases :=
  unfold change_communication_state, change_servo_state,
    change_servo_state_with, with_flags, not_callable,
    mbind, Eff_bind, mret, Eff_ret, tcp_send, tcp_receive, sleep,
    set_com_ctrl, set_servo;
  simpl;
  repeat match goal with
         | |- context [match ?x with
                       | Raises _ => _ | Returns _ => _ | NotCallable => _
                       end] =>
             destruct x eqn:?; simpl
         end.

Section Protocol.

Context {T : Type}.
Variable MelfaCmd : Catalog.
Implicit Types (r : MelfaRobot (T:=T)) (w : World (T:=T)) (b : bool)
  (st : State (T:=T)) (c : TCPClient (T:=T)).

Local Abbreviation servo_cmd b := (if b then SRV_ON MelfaCmd else SRV_OFF MelfaCmd).
Local Abbreviation com_cmd1 b := (if b then COM_OPEN MelfaCmd else CNTL_OFF MelfaCmd).
Local Abbreviation com_cmd2 b := (if b then CNTL_ON MelfaCmd else COM_CLOSE MelfaCmd).
Local Abbreviation settle := (EvSleep (SERVO_INIT_SEC MelfaCmd)).

(** *** The two primitive transitions, call by call *)

Lemma change_servo_state_returns r w b t1 t2 u data :
  send (tcp r) (servo_cmd b) (chan w) = (t1, Returns u) →
  receive (tcp r) t1 = (t2, Returns data) →
  change_servo_state MelfaCmd b (r, w)
  = ((with_flags r b (com_ctrl r),
      {| chan := t2; calls := calls w ++ [EvSend (servo_cmd b); EvReceive; settle] |}),
     inr tt).
Proof.
  intros Hs Hr. unfold change_servo_state, change_servo_state_with.
  destruct b; repeat step; unfold sleep, set_servo, with_flags; simpl;
    by rewrite <- !app_assoc.
Qed.

Lemma change_servo_state_send_raises r w b t1 e :
  send (tcp r) (servo_cmd b) (chan w) = (t1, Raises e) →
  change_servo_state MelfaCmd b (r, w)
  = ((r, {| chan := t1; calls := calls w ++ [EvSend (servo_cmd b)] |}),
     inl (TransportError e)).
Proof. intros Hs. unfold change_servo_state, change_servo_state_with. destruct b; by repeat step. Qed.

Lemma change_servo_state_receive_raises r w b t1 t2 u e :
  send (tcp r) (servo_cmd b) (chan w) = (t1, Returns u) →
  receive (tcp r) t1 = (t2, Raises e) →
  change_servo_state MelfaCmd b (r, w)
  = ((r, {| chan := t2; calls := calls w ++ [EvSend (servo_cmd b); EvReceive] |}),
     inl (TransportError e)).
Proof.
  intros Hs Hr. unfold change_servo_state, change_servo_state_with.
  destruct b; repeat step; by rewrite <- !app_assoc.
Qed.

Lemma change_communication_state_returns r w b t1 t2 t3 t4 u1 d2 u3 d4 :
  send (tcp r) (com_cmd1 b) (chan w) = (t1, Returns u1) →
  receive (tcp r) t1 = (t2, Returns d2) →
  send (tcp r) (com_cmd2 b) t2 = (t3, Returns u3) →
  receive (tcp r) t3 = (t4, Returns d4) →
  change_communication_state MelfaCmd b (r, w)
  = ((with_flags r (servo r) b,
      {| chan := t4;
         calls := calls w ++ [EvSend (com_cmd1 b); EvReceive;
                              EvSend (com_cmd2 b); EvReceive] |}),
     inr tt).
Proof.
  intros H1 H2 H3 H4. unfold change_communication_state.
  destruct b; repeat step; unfold set_com_ctrl, with_flags; simpl;
    by rewrite <- !app_assoc.
Qed.

(** *** Reliable clients *)

Lemma reliable_send c msg t :
  reliable c → send c msg t = ((send c msg t).1, Returns tt).
Proof. intros [Hs _]. rewrite <- (Hs msg t). by destruct (send c msg t). Qed.

Lemma reliable_receive c t :
  reliable c → ∃ data, receive c t = ((receive c t).1, Returns data).
Proof.
  intros [_ Hr]. destruct (Hr t) as [data Hd]. exists data.
  rewrite <- Hd. by destruct (receive c t).
Qed.

Lemma change_servo_state_reliable r w b :
  reliable (tcp r) →
  ∃ t', change_servo_state MelfaCmd b (r, w)
        = ((with_flags r b (com_ctrl r),
            {| chan := t'; calls := calls w ++ [EvSend (servo_cmd b); EvReceive; settle] |}),
           inr tt).
Proof.
  intros Hrel.
  pose proof (reliable_send _ (servo_cmd b) (chan w) Hrel) as Hs.
  destruct (reliable_receive _ (send (tcp r) (servo_cmd b) (chan w)).1 Hrel) as [d Hr].
  eexists. by eapply change_servo_state_returns.
Qed.

Lemma change_communication_state_reliable r w b :
  reliable (tcp r) →
  ∃ t', change_communication_state MelfaCmd b (r, w)
        = ((with_flags r (servo r) b,
            {| chan := t';
               calls := calls w ++ [EvSend (com_cmd1 b); EvReceive;
                                    EvSend (com_cmd2 b); EvReceive] |}),
           inr tt).
Proof.
  intros Hrel.
  pose proof (reliable_send _ (com_cmd1 b) (chan w) Hrel) as H1.
  destruct (reliable_receive _ (send (tcp r) (com_cmd1 b) (chan w)).1 Hrel) as [d2 H2].
  pose proof (reliable_send _ (com_cmd2 b)
                (receive (tcp r) (send (tcp r) (com_cmd1 b) (chan w)).1).1 Hrel) as H3.
  destruct (reliable_receive _
              (send (tcp r) (com_cmd2 b)
                 (receive (tcp r) (send (tcp r) (com_cmd1 b) (chan w)).1).1).1 Hrel)
    as [d4 H4].
  eexists. by eapply change_communication_state_returns.
Qed.

(** *** What a transition leaves alone, whatever the client does *)

Lemma change_communication_state_frame b st :
  let res := change_communication_state MelfaCmd b st in
  tcp res.1.1 = tcp st.1 ∧ joints res.1.1 = joints st.1 ∧ servo res.1.1 = servo st.1 ∧
  com_ctrl res.1.1 = (if res.2 is inr _ then b else com_ctrl st.1).
Proof. destruct b; by client_cases. Qed.

Lemma change_servo_state_frame b st :
  let res := change_servo_state MelfaCmd b st in
  tcp res.1.1 = tcp st.1 ∧ joints res.1.1 = joints st.1 ∧ com_ctrl res.1.1 = com_ctrl st.1 ∧
  servo res.1.1 = (if res.2 is inr _ then b else servo st.1).
Proof. destruct b; by client_cases. Qed.

(** A transition that returns has made all its calls. *)
Lemma change_communication_state_inv b r w st' :
  change_communication_state MelfaCmd b (r, w) = (st', inr tt) →
  st'.1 = with_flags r (servo r) b ∧
  calls st'.2 = calls w ++ [EvSend (com_cmd1 b); EvReceive; EvSend (com_cmd2 b); EvReceive].
Proof.
  destruct b; client_cases; intros [= <-]; simpl; by rewrite <- !app_assoc.
Qed.

Lemma change_servo_state_inv b r w st' :
  change_servo_state MelfaCmd b (r, w) = (st', inr tt) →
  st'.1 = with_flags r b (com_ctrl r) ∧
  calls st'.2 = calls w ++ [EvSend (servo_cmd b); EvReceive; settle].
Proof.
  destruct b; client_cases; intros [= <-]; simpl; by rewrite <- !app_assoc.
Qed.

(** *** The composed operations *)

Lemma start_reliable r w safe_return :
  reliable (tcp r) →
  ∃ t', start MelfaCmd safe_return (r, w)
        = ((with_flags r true true,
            {| chan := t';
               calls := calls w ++ [EvSend (COM_OPEN MelfaCmd); EvReceive;
                                    EvSend (CNTL_ON MelfaCmd); EvReceive;
                                    EvSend (SRV_ON MelfaCmd); EvReceive; settle] |}),
           inr tt).
Proof.
  intros Hrel.
  destruct (change_communication_state_reliable r w true Hrel) as [t1 H1].
  edestruct (change_servo_state_reliable (with_flags r (servo r) true)) as [t2 H2];
    [exact Hrel|].
  exists t2. unfold start, start_with.
  erewrite bind_returns by exact H1. erewrite bind_returns by exact H2.
  destruct safe_return; unfold go_safe_pos, with_flags; simpl;
    by rewrite <- !app_assoc.
Qed.

Lemma shutdown_reliable r w safe_return :
  reliable (tcp r) →
  ∃ t', shutdown MelfaCmd safe_return (r, w)
        = ((with_flags r false false,
            {| chan := t';
               calls := calls w ++ [EvSend (SRV_OFF MelfaCmd); EvReceive; settle;
                                    EvSend (CNTL_OFF MelfaCmd); EvReceive;
                                    EvSend (COM_CLOSE MelfaCmd); EvReceive] |}),
           inr tt).
Proof.
  intros Hrel.
  destruct (change_servo_state_reliable r w false Hrel) as [t1 H1].
  edestruct (change_communication_state_reliable (with_flags r false (com_ctrl r)))
    as [t2 H2]; [exact Hrel|].
  exists t2. unfold shutdown, shutdown_with.
  assert ((if safe_return then go_safe_pos else mret ()) (r, w) = ((r, w), inr tt)) as H0
    by by destruct safe_return.
  erewrite bind_returns by exact H0. erewrite bind_returns by exact H1.
  rewrite H2. unfold with_flags; simpl. by rewrite <- !app_assoc.
Qed.

Lemma distinct_cmds_servo :
  distinct_cmds MelfaCmd →
  SRV_ON MelfaCmd ≠ COM_OPEN MelfaCmd ∧ SRV_ON MelfaCmd ≠ CNTL_ON MelfaCmd ∧
  SRV_OFF MelfaCmd ≠ COM_OPEN MelfaCmd ∧ SRV_OFF MelfaCmd ≠ CNTL_ON MelfaCmd ∧
  SRV_OFF MelfaCmd ≠ CNTL_OFF MelfaCmd ∧ SRV_OFF MelfaCmd ≠ COM_CLOSE MelfaCmd.
Proof.
  unfold distinct_cmds. rewrite !NoDup_cons, !elem_of_cons, !elem_of_nil.
  intros H. repeat split; intros E; rewrite E in *; tauto.
Qed.

(** *** The claims about the protocol *)

(** C2 (amended). If [start] gets through its communication step and the
    send or the receive of the servo-on step raises, then [start] raises
    that same error, [com_ctrl] is true, [servo] has the value it had before
    the call (false if it was false), nothing else of the session changed,
    and the call stopped right there: no sleep, and the safe-position step
    is not reached, whatever [go_safe_pos] the robot has. *)
Theorem start_servo_step_raises r w r1 w1 e safe_return :
  change_communication_state MelfaCmd true (r, w) = ((r1, w1), inr tt) →
  ((∃ t1, send (tcp r) (SRV_ON MelfaCmd) (chan w1) = (t1, Raises e)) ∨
   (∃ t1 u t2, send (tcp r) (SRV_ON MelfaCmd) (chan w1) = (t1, Returns u) ∧
               receive (tcp r) t1 = (t2, Raises e))) →
  ∃ st', start MelfaCmd safe_return (r, w) = (st', inl (TransportError e)) ∧
    (∀ step : Eff State unit,
       start_with MelfaCmd step safe_return (r, w) = (st', inl (TransportError e))) ∧
    com_ctrl st'.1 = true ∧ servo st'.1 = servo r ∧
    (servo r = false → servo st'.1 = false) ∧
    joints st'.1 = joints r ∧
    (calls st'.2 = calls w1 ++ [EvSend (SRV_ON MelfaCmd)] ∨
     calls st'.2 = calls w1 ++ [EvSend (SRV_ON MelfaCmd); EvReceive]).
Proof.
  intros Hcom Hsrv.
  destruct (change_communication_state_inv _ _ _ _ Hcom) as [Hr1 _].
  simpl in Hr1. subst r1.
  destruct Hsrv as [[t1 Hs] | (t1 & u & t2 & Hs & Hr)].
  - pose proof (change_servo_state_send_raises (with_flags r (servo r) true)
                  w1 true _ _ Hs) as Hfail.
    eexists. split; [|split].
    + unfold start, start_with. erewrite bind_returns by exact Hcom.
      by erewrite bind_raises by exact Hfail.
    + intros step. unfold start_with. erewrite bind_returns by exact Hcom.
      by erewrite bind_raises by exact Hfail.
    + simpl. auto 10.
  - pose proof (change_servo_state_receive_raises (with_flags r (servo r) true)
                  w1 true _ _ _ _ Hs Hr) as Hfail.
    eexists. split; [|split].
    + unfold start, start_with. erewrite bind_returns by exact Hcom.
      by erewrite bind_raises by exact Hfail.
    + intros step. unfold start_with. erewrite bind_returns by exact Hcom.
      by erewrite bind_raises by exact Hfail.
    + simpl. auto 10.
Qed.

(** C3. [shutdown(safe_return=True)] runs the safe-position step first,
    whatever [go_safe_pos] the robot has: if the step raises, [shutdown]
    raises with the state the step left and nothing of servo-off was begun;
    if it returns, servo-off and then release-control and close-communication
    follow from the state it left.  On a [MelfaRobot] itself the step is the
    stub, and with a client that never raises the client sees send SRV_OFF,
    receive, the settle sleep, send CNTL_OFF, receive, send COM_CLOSE,
    receive, and both flags end false.  If the send of SRV_OFF raises, the
    session is left as it was ([servo] is not cleared), the error is raised,
    and that failed send is the only call the client saw: no CNTL_OFF, no
    COM_CLOSE. *)
Theorem shutdown_reverse_order r w :
  (∀ (step : Eff State unit) st0 e,
     step (r, w) = (st0, inl e) →
     shutdown_with MelfaCmd step true (r, w) = (st0, inl e)) ∧
  (∀ (step : Eff State unit) r0 w0,
     step (r, w) = ((r0, w0), inr tt) → reliable (tcp r0) →
     ∃ st', shutdown_with MelfaCmd step true (r, w) = (st', inr tt) ∧
       servo st'.1 = false ∧ com_ctrl st'.1 = false ∧
       calls st'.2 = calls w0 ++ [EvSend (SRV_OFF MelfaCmd); EvReceive; settle;
                                  EvSend (CNTL_OFF MelfaCmd); EvReceive;
                                  EvSend (COM_CLOSE MelfaCmd); EvReceive]) ∧
  (reliable (tcp r) →
   ∃ st', shutdown MelfaCmd true (r, w) = (st', inr tt) ∧
     servo st'.1 = false ∧ com_ctrl st'.1 = false ∧
     calls st'.2 = calls w ++ [EvSend (SRV_OFF MelfaCmd); EvReceive; settle;
                               EvSend (CNTL_OFF MelfaCmd); EvReceive;
                               EvSend (COM_CLOSE MelfaCmd); EvReceive]) ∧
  (∀ t1 e, send (tcp r) (SRV_OFF MelfaCmd) (chan w) = (t1, Raises e) →
   ∃ w', shutdown MelfaCmd true (r, w) = ((r, w'), inl (TransportError e)) ∧
     calls w' = calls w ++ [EvSend (SRV_OFF MelfaCmd)] ∧
     (distinct_cmds MelfaCmd →
      (EvSend (CNTL_OFF MelfaCmd) ∉ [EvSend (SRV_OFF MelfaCmd)]) ∧
      (EvSend (COM_CLOSE MelfaCmd) ∉ [EvSend (SRV_OFF MelfaCmd)]))).
Proof.
  split; [|split; [|split]].
  - intros step st0 e Hstep. unfold shutdown_with. by erewrite bind_raises.
  - intros step r0 w0 Hstep Hrel.
    destruct (shutdown_reliable r0 w0 false Hrel) as [t' H].
    eexists. split.
    + unfold shutdown_with. erewrite bind_returns by exact Hstep. exact H.
    + by simpl.
  - intros Hrel. destruct (shutdown_reliable r w true Hrel) as [t' H].
    eexists. split; [exact H|]. by simpl.
  - intros t1 e Hs. eexists. split.
    { unfold shutdown, shutdown_with, go_safe_pos. rewrite bind_ret_l.
      erewrite bind_raises; [reflexivity|].
      by apply (change_servo_state_send_raises _ _ false). }
    split; [reflexivity|].
    + intros Hd. apply distinct_cmds_servo in Hd as (_ & _ & _ & _ & H5 & H6).
      rewrite !list_elem_of_singleton. split; intros [= E]; congruence.
Qed.

Lemma change_servo_state_with_returns (sleep_fn : Qp → Eff State unit)
    r w b t1 t2 u data :
  send (tcp r) (servo_cmd b) (chan w) = (t1, Returns u) →
  receive (tcp r) t1 = (t2, Returns data) →
  change_servo_state_with MelfaCmd sleep_fn b (r, w)
  = (sleep_fn (SERVO_INIT_SEC MelfaCmd) ;; set_servo b)
      (r, {| chan := t2; calls := calls w ++ [EvSend (servo_cmd b); EvReceive] |}).
Proof.
  intros Hs Hr. unfold change_servo_state_with.
  destruct b; do 2 step; rewrite bind_ret_l, <- app_assoc; reflexivity.
Qed.

(** C4. With the send and the receive returning, [change_servo_state(b)]
    sends SRV_ON or SRV_OFF, receives once, sleeps SERVO_INIT_SEC (the same
    constant for on and off) and only then sets [servo] to [b]: whatever
    [sleep] is bound to, it is called with SERVO_INIT_SEC on a robot whose
    flag still has its old value, and when it raises the flag is not
    written.  With [time.sleep] the call returns with [servo] equal to [b].
    It does all this whatever [servo] was before, so also when [servo]
    already equals [b]. *)
Theorem change_servo_state_protocol r w b t1 t2 u data :
  send (tcp r) (servo_cmd b) (chan w) = (t1, Returns u) →
  receive (tcp r) t1 = (t2, Returns data) →
  (∀ sleep_fn : Qp → Eff State unit,
     change_servo_state_with MelfaCmd sleep_fn b (r, w)
     = (sleep_fn (SERVO_INIT_SEC MelfaCmd) ;; set_servo b)
         (r, {| chan := t2; calls := calls w ++ [EvSend (servo_cmd b); EvReceive] |})) ∧
  (∀ (sleep_fn : Qp → Eff State unit) st1 e,
     sleep_fn (SERVO_INIT_SEC MelfaCmd)
       (r, {| chan := t2; calls := calls w ++ [EvSend (servo_cmd b); EvReceive] |})
     = (st1, inl e) →
     change_servo_state_with MelfaCmd sleep_fn b (r, w) = (st1, inl e)) ∧
  ∃ st', change_servo_state MelfaCmd b (r, w) = (st', inr tt) ∧
    servo st'.1 = b ∧ com_ctrl st'.1 = com_ctrl r ∧ joints st'.1 = joints r ∧
    calls st'.2 = calls w ++ [EvSend (servo_cmd b); EvReceive; settle].
Proof.
  intros Hs Hr. split; [|split].
  - intros sleep_fn. exact (change_servo_state_with_returns sleep_fn _ _ _ _ _ _ _ Hs Hr).
  - intros sleep_fn st1 e Hsleep.
    rewrite (change_servo_state_with_returns sleep_fn _ _ _ _ _ _ _ Hs Hr).
    by erewrite bind_raises.
  - eexists. split; [by eapply change_servo_state_returns|]. by simpl.
Qed.

(** C7. A [maintenance()] call that returns has set [com_ctrl] to true, left
    [servo] and [joints] as they were, and made exactly four calls on the
    client: send COM_OPEN, receive, send CNTL_ON, receive.  With pairwise
    different commands neither SRV_ON nor SRV_OFF is among what was sent,
    and there was no sleep. *)
Theorem maintenance_only_communication r w st' :
  maintenance MelfaCmd (r, w) = (st', inr tt) →
  com_ctrl st'.1 = true ∧ servo st'.1 = servo r ∧ joints st'.1 = joints r ∧
  calls st'.2 = calls w ++ [EvSend (COM_OPEN MelfaCmd); EvReceive;
                            EvSend (CNTL_ON MelfaCmd); EvReceive] ∧
  (distinct_cmds MelfaCmd →
   (SRV_ON MelfaCmd ∉ [COM_OPEN MelfaCmd; CNTL_ON MelfaCmd]) ∧
   (SRV_OFF MelfaCmd ∉ [COM_OPEN MelfaCmd; CNTL_ON MelfaCmd])).
Proof.
  unfold maintenance. intros H.
  apply change_communication_state_inv in H as [-> ->]. simpl.
  repeat split; try done;
    apply distinct_cmds_servo in H as (H1 & H2 & H3 & H4 & _);
    rewrite !elem_of_cons, elem_of_nil; tauto.
Qed.

(** C9. [go_safe_pos()] returns at once with the session and the world as
    they were: nothing sent, nothing received, no field changed.  So [start]
    and [shutdown] run alike with and without their safe-position step. *)
Theorem go_safe_pos_noop st :
  go_safe_pos st = (st, inr tt) ∧
  start MelfaCmd true st = start MelfaCmd false st ∧
  shutdown MelfaCmd true st = shutdown MelfaCmd false st.
Proof. done. Qed.

End Protocol.

(** ** Construction, and what no call changes *)

Section Session.

Context {T : Type}.
Variable MelfaCmd : Catalog.
Implicit Types (o : PyObject (T:=T)) (r : MelfaRobot (T:=T)) (w : World (T:=T))
  (st : State (T:=T)) (call : Call).

Lemma init_cases o n w :
  (__init__ o n w).1 = w ∧
  match (__init__ o n w).2 with
  | inl e =>
      (n ≤ 0 ∨ hasattr_send o = false ∨ hasattr_receive o = false) ∧
      ∃ msg, e = TypeError msg
  | inr r =>
      0 < n ∧ hasattr_send o = true ∧ hasattr_receive o = true ∧
      servo r = false ∧ com_ctrl r = false ∧
      joints r = list_to_set ((λ i, "J" +:+ pretty i) <$> range 1 (n + 1))
  end.
Proof.
  unfold __init__, hasattr_send, hasattr_receive.
  destruct (attr_send o) as [s|], (attr_receive o) as [rcv|]; simpl;
    try (split; [done|]; split; [|by eexists]; right;
         first [by left | by right]).
  destruct (Z.gtb_spec n 0); simpl.
  - split; [done|]. repeat split; try done; lia.
  - split; [done|]. split; [left; lia|by eexists].
Qed.

Lemma frames_ret {A} (a : A) : frames (T:=T) (mret a).
Proof. by intros st. Qed.

Lemma frames_bind {A B} (m : Eff (State (T:=T)) A) (f : A → Eff State B) :
  frames m → (∀ a, frames (f a)) → frames (m ≫= f).
Proof.
  intros Hm Hf st. destruct (Hm st) as (Ht & Hj & He).
  unfold mbind, Eff_bind. destruct (m st) as [st' [e|a]]; simpl in *.
  - repeat split; [done..|]. intros Hc msg [= ->]. by apply (He Hc msg).
  - destruct (Hf a st') as (Ht' & Hj' & He'). rewrite Ht', Hj'.
    repeat split; [done..|]. intros Hc. apply He'. by rewrite Ht.
Qed.

Lemma frames_tcp_send msg : frames (tcp_send (T:=T) msg).
Proof.
  intros st. unfold tcp_send. simpl. repeat split.
  intros [Hs _] m. specialize (Hs msg (chan st.2)).
  by destruct (send _ _ _).2.
Qed.

Lemma frames_tcp_receive : frames (tcp_receive (T:=T)).
Proof.
  intros st. unfold tcp_receive. simpl. repeat split.
  intros [_ Hr] m. specialize (Hr (chan st.2)).
  by destruct (receive _ _).2.
Qed.

Lemma frames_sleep secs : frames (sleep (T:=T) secs).
Proof. by intros st. Qed.

Lemma frames_set_com_ctrl b : frames (set_com_ctrl (T:=T) b).
Proof. by intros st. Qed.

Lemma frames_set_servo b : frames (set_servo (T:=T) b).
Proof. by intros st. Qed.

Lemma frames_invoke call : frames (invoke (T:=T) MelfaCmd call).
Proof.
  destruct call as [[]|[]| |[]|[]| | | |]; simpl;
    unfold start, start_with, shutdown, shutdown_with, maintenance,
      change_communication_state, change_servo_state, change_servo_state_with,
      go_safe_pos, reset_speed_factors,
      linear_move_poll, circular_move_poll;
    cbv beta iota;
    repeat first [ apply frames_tcp_send | apply frames_tcp_receive
                 | apply frames_sleep | apply frames_set_com_ctrl
                 | apply frames_set_servo | apply frames_ret
                 | apply frames_bind; [|intros ?] ].
Qed.

Lemma run_calls_frame cs st :
  tcp (run_calls MelfaCmd cs st).1.1 = tcp st.1 ∧
  joints (run_calls MelfaCmd cs st).1.1 = joints st.1.
Proof.
  revert st. induction cs as [|call cs IH]; intros st; simpl; [done|].
  destruct (IH (invoke MelfaCmd call st).1) as [-> ->].
  by destruct (frames_invoke call st) as (-> & -> & _).
Qed.


(** C6. The robot [__init__] returns for [n] axes has [n ≥ 1] and the joints
    "J1" .. "Jn", [n] of them; and whatever calls are made on it afterwards,
    returning or raising, its joints stay that set. *)
Theorem joints_fixed_at_construction o n w r :
  (__init__ o n w).2 = inr r →
  1 ≤ n ∧
  (∀ s, s ∈ joints r ↔ ∃ i, 1 ≤ i ≤ n ∧ s = "J" +:+ pretty i) ∧
  size (joints r) = Z.to_nat n ∧
  (∀ cs w', joints (run_calls MelfaCmd cs (r, w')).1.1 = joints r).
Proof.
  intros Hinit. pose proof (init_cases o n w) as [_ Hres]. rewrite Hinit in Hres.
  destruct Hres as (Hn & _ & _ & _ & _ & Hj). split; [lia|]. split; [|split].
  - intros s. rewrite Hj, elem_of_list_to_set, list_elem_of_fmap. unfold range.
    split.
    + intros (i & -> & Hi). apply elem_of_seqZ in Hi. exists i. split; [lia|done].
    + intros (i & Hi & ->). exists i. split; [done|]. apply elem_of_seqZ. lia.
  - rewrite Hj, size_list_to_set.
    + rewrite length_fmap. unfold range. rewrite length_seqZ. lia.
    + assert (Inj (=) (=) (λ i : Z, "J" +:+ pretty i)) as Hinj.
      { intros i j E. by apply (inj (String.app "J")), (inj pretty) in E. }
      apply (NoDup_fmap_2 _), NoDup_seqZ.
  - intros cs w'. apply run_calls_frame.
Qed.

(** C8. [validate_id x] is true exactly for [0 ≤ x ≤ 65535]; so it is true
    at 0 and 65535 and false at -1 and 65536. *)
Theorem validate_id_range x :
  (validate_id x = true ↔ 0 ≤ x ≤ 65535) ∧
  validate_id 0 = true ∧ validate_id (-1) = false ∧
  validate_id 65535 = true ∧ validate_id 65536 = false.
Proof. unfold validate_id. repeat split; try done; lia. Qed.

End Session.

(** ** Two runs that differ in what [receive] returns *)

Section Payload.

Context {T : Type}.
Variable MelfaCmd : Catalog.
Variable R : T → T → Prop.
Variables c1 c2 : TCPClient (T:=T).
Hypothesis Hsim : same_but_payload R c1 c2.

Local Abbreviation lock m1 m2 := (lockstep R c1 c2 m1 m2).

Lemma lockstep_ret {A} (a1 a2 : A) : lock (mret a1) (mret a2).
Proof. by intros st1 st2 H. Qed.

Lemma lockstep_bind {A B} (m1 m2 : Eff State A) (f1 f2 : A → Eff State B) :
  lock m1 m2 → (∀ a1 a2, lock (f1 a1) (f2 a2)) → lock (m1 ≫= f1) (m2 ≫= f2).
Proof.
  intros Hm Hf st1 st2 Hst. destruct (Hm st1 st2 Hst) as [Hst' Hres].
  unfold mbind, Eff_bind.
  destruct (m1 st1) as [st1' [e1|a1]], (m2 st2) as [st2' [e2|a2]];
    simpl in *; try done.
  by apply Hf.
Qed.

Lemma lockstep_tcp_send msg : lock (tcp_send msg) (tcp_send msg).
Proof.
  intros st1 st2 (Ht1 & Ht2 & Hsrv & Hcom & Hj & Hr & Hcalls).
  destruct Hsim as [Hsend _].
  destruct (Hsend msg _ _ Hr) as [Hr' Hout].
  unfold tcp_send. simpl. rewrite Ht1, Ht2, Hout, Hcalls.
  split; [by repeat split|]. by destruct (send c2 msg (chan st2.2)).2.
Qed.

Lemma lockstep_tcp_receive : lock tcp_receive tcp_receive.
Proof.
  intros st1 st2 (Ht1 & Ht2 & Hsrv & Hcom & Hj & Hr & Hcalls).
  destruct Hsim as [_ Hrecv].
  destruct (Hrecv _ _ Hr) as [Hr' (d1 & d2 & Hd1 & Hd2)].
  unfold tcp_receive. simpl. rewrite Ht1, Ht2, Hd1, Hd2, Hcalls.
  split; [by repeat split|done].
Qed.

Lemma lockstep_sleep secs : lock (sleep secs) (sleep secs).
Proof.
  intros st1 st2 (Ht1 & Ht2 & Hsrv & Hcom & Hj & Hr & Hcalls).
  unfold sleep. simpl. rewrite Hcalls. by repeat split.
Qed.

Lemma lockstep_set_com_ctrl b : lock (set_com_ctrl b) (set_com_ctrl b).
Proof. intros st1 st2 (Ht1 & Ht2 & Hsrv & Hcom & Hj & Hr & Hcalls). by repeat split. Qed.

Lemma lockstep_set_servo b : lock (set_servo b) (set_servo b).
Proof. intros st1 st2 (Ht1 & Ht2 & Hsrv & Hcom & Hj & Hr & Hcalls). by repeat split. Qed.

Lemma lockstep_invoke call : lock (invoke MelfaCmd call) (invoke MelfaCmd call).
Proof.
  destruct call as [[]|[]| |[]|[]| | | |]; simpl;
    unfold start, start_with, shutdown, shutdown_with, maintenance,
      change_communication_state, change_servo_state, change_servo_state_with,
      go_safe_pos, reset_speed_factors,
      linear_move_poll, circular_move_poll;
    cbv beta iota;
    repeat first [ apply lockstep_tcp_send | apply lockstep_tcp_receive
                 | apply lockstep_sleep | apply lockstep_set_com_ctrl
                 | apply lockstep_set_servo | apply lockstep_ret
                 | apply lockstep_bind; [|intros ? ?] ].
Qed.

Lemma alike_unit (x y : Exn + unit) : alike x y → x = y.
Proof. destruct x as [e1|[]], y as [e2|[]]; simpl; by try intros ->. Qed.

Lemma run_calls_lockstep cs st1 st2 :
  agree R c1 c2 st1 st2 →
  agree R c1 c2 (run_calls MelfaCmd cs st1).1 (run_calls MelfaCmd cs st2).1 ∧
  (run_calls MelfaCmd cs st1).2 = (run_calls MelfaCmd cs st2).2.
Proof.
  revert st1 st2. induction cs as [|call cs IH]; intros st1 st2 Hst; simpl; [done|].
  destruct (lockstep_invoke call st1 st2 Hst) as [Hst' Hres].
  destruct (IH _ _ Hst') as [Hfin Hout].
  split; [done|]. f_equal; [by apply alike_unit|done].
Qed.

(** C10. Take two runs of the same calls on robots that start with the same
    flags, over two clients whose [send] behaves alike and whose [receive]
    always returns, with data that may differ from one run to the other.
    Then both runs end with the same [com_ctrl] and the same [servo], every
    call returned or raised alike in both, and the clients saw the same
    calls: no method looks at what [receive] returned. *)
Theorem flags_independent_of_payload cs r1 r2 w1 w2 :
  tcp r1 = c1 → tcp r2 = c2 →
  servo r1 = servo r2 → com_ctrl r1 = com_ctrl r2 → joints r1 = joints r2 →
  R (chan w1) (chan w2) → calls w1 = calls w2 →
  com_ctrl (run_calls MelfaCmd cs (r1, w1)).1.1
  = com_ctrl (run_calls MelfaCmd cs (r2, w2)).1.1 ∧
  servo (run_calls MelfaCmd cs (r1, w1)).1.1
  = servo (run_calls MelfaCmd cs (r2, w2)).1.1 ∧
  (run_calls MelfaCmd cs (r1, w1)).2 = (run_calls MelfaCmd cs (r2, w2)).2 ∧
  calls (run_calls MelfaCmd cs (r1, w1)).1.2
  = calls (run_calls MelfaCmd cs (r2, w2)).1.2.
Proof.
  intros Ht1 Ht2 Hsrv Hcom Hj Hr Hcalls.
  destruct (run_calls_lockstep cs (r1, w1) (r2, w2)) as [Hfin Hout];
    [by repeat split|].
  destruct Hfin as (_ & _ & Hsrv' & Hcom' & _ & _ & Hcalls'). done.
Qed.

End Payload.

(** ** The theorems at concrete clients *)

Example init_flaky k :
  __init__ (flaky_client k) 6 world0 = (world0, inr (flaky_robot k)).
Proof. reflexivity. Qed.

Example init_deaf k :
  __init__ (deaf_client k) 6 world0 = (world0, inr (deaf_robot k)).
Proof. reflexivity. Qed.

(** A [receive] that raises in the servo-on step: the sleep is not reached
    and [servo] stays false. *)
Example start_receive_raises :
  start demo_cmd true (deaf_robot 5, world0)
  = ((with_flags (deaf_robot 5) false true,
      {| chan := 6%nat;
         calls := [EvSend "OPEN"; EvReceive; EvSend "CNTLON"; EvReceive;
                   EvSend "SRVON"; EvReceive] |}),
     inl (TransportError "timed out")).
Proof. reflexivity. Qed.

(** A [shutdown()] after a [start()], neither raising. *)
Example start_then_shutdown :
  sent (calls (shutdown demo_cmd true (started (echo_robot "QoK"))).1.2)
  = ["OPEN"; "CNTLON"; "SRVON"; "SRVOFF"; "CNTLOFF"; "CLOSE"].
Proof. reflexivity. Qed.

Lemma echo_reliable data : reliable (tcp (echo_robot data)).
Proof. split; [done|]. intros t. by exists data. Qed.

Lemma demo_cmd_distinct : distinct_cmds demo_cmd.
Proof.
  unfold distinct_cmds. simpl.
  repeat (apply NoDup_cons; split;
          [rewrite ?elem_of_cons, elem_of_nil; intuition discriminate|]).
  apply NoDup_nil_2.
Qed.

Lemma echo_same_but_payload d1 d2 :
  same_but_payload eq (tcp (echo_robot d1)) (tcp (echo_robot d2)).
Proof.
  split.
  - by intros msg t1 t2 ->.
  - intros t1 t2 ->. split; [done|]. by exists d1, d2.
Qed.

(** C1. The claim at a fresh robot over a client that never raises:
    [start(True)] returns, but SRV_ON is the last thing sent; no message
    follows it, so the client sees no safe-position move, and the robot has
    nothing that records a safe position.  The body of [start] does call
    [go_safe_pos] after the servo step (with a [go_safe_pos] that moves, its
    command comes after SRV_ON): it is the stub that does nothing. *)
Lemma start_safe_move_counterexample :
  (__init__ (echo_client "QoK") 6 world0).2 = inr (echo_robot "QoK") ∧
  reliable (tcp (echo_robot "QoK")) ∧
  (start demo_cmd true (echo_robot "QoK", world0)).2 = inr tt ∧
  sent (calls (started (echo_robot "QoK")).2) = ["OPEN"; "CNTLON"; "SRVON"] ∧
  (¬ ∃ pre mv post,
      sent (calls (started (echo_robot "QoK")).2) = pre ++ SRV_ON demo_cmd :: mv :: post) ∧
  sent (calls (start_with demo_cmd move_home true (echo_robot "QoK", world0)).1.2)
  = ["OPEN"; "CNTLON"; "SRVON"; "HOME"].
Proof.
  split; [reflexivity|]. split; [apply echo_reliable|]. split; [reflexivity|].
  assert (sent (calls (started (echo_robot "QoK")).2) = ["OPEN"; "CNTLON"; "SRVON"])
    as Hsent by reflexivity.
  split; [exact Hsent|]. split; [|reflexivity].
  rewrite Hsent. intros (pre & mv & post & H).
  destruct pre as [|p1 [|p2 [|p3 pre]]]; simpl in H; try discriminate.
  injection H as _ _ _ H. by destruct pre.
Qed.

Lemma start_servo_step_raises_witness :
  change_communication_state demo_cmd true (flaky_robot 4, world0)
  = ((with_flags (flaky_robot 4) false true,
      {| chan := 4%nat;
         calls := [EvSend "OPEN"; EvReceive; EvSend "CNTLON"; EvReceive] |}), inr tt) ∧
  send (tcp (flaky_robot 4)) "SRVON" 4%nat = (5%nat, Raises "connection lost") ∧
  ∃ st', start demo_cmd true (flaky_robot 4, world0)
         = (st', inl (TransportError "connection lost")) ∧
    start_with demo_cmd move_home true (flaky_robot 4, world0)
    = (st', inl (TransportError "connection lost")) ∧
    com_ctrl st'.1 = true ∧ servo st'.1 = false ∧
    calls st'.2 = [EvSend "OPEN"; EvReceive; EvSend "CNTLON"; EvReceive; EvSend "SRVON"].
Proof.
  split; [reflexivity|]. split; [reflexivity|].
  destruct (start_servo_step_raises demo_cmd (flaky_robot 4) world0
              (with_flags (flaky_robot 4) false true)
              {| chan := 4%nat;
                 calls := [EvSend "OPEN"; EvReceive; EvSend "CNTLON"; EvReceive] |}
              "connection lost" true eq_refl
              (or_introl (ex_intro _ 5%nat eq_refl)))
    as (st' & Hrun & Hany & Hcom & Hsrv & _ & _ & _).
  exists st'. split; [exact Hrun|]. split; [exact (Hany move_home)|].
  split; [exact Hcom|]. split; [exact Hsrv|].
  replace st' with (start demo_cmd true (flaky_robot 4, world0)).1
    by (rewrite Hrun; reflexivity).
  reflexivity.
Defined.

(** C2 as stated fails on a session that is not fresh: after one [start()]
    that returned, a second [start()] whose SRV_ON send raises ends with
    [servo] still true. *)
Lemma start_servo_flag_counterexample :
  (start demo_cmd true (flaky_robot 10, world0)).2 = inr tt ∧
  (start demo_cmd true (started (flaky_robot 10))).2
  = inl (TransportError "connection lost") ∧
  calls (start demo_cmd true (started (flaky_robot 10))).1.2
  = calls (started (flaky_robot 10)).2
    ++ [EvSend "OPEN"; EvReceive; EvSend "CNTLON"; EvReceive; EvSend "SRVON"] ∧
  com_ctrl (start demo_cmd true (started (flaky_robot 10))).1.1 = true ∧
  servo (start demo_cmd true (started (flaky_robot 10))).1.1 ≠ false.
Proof. repeat split; try reflexivity. discriminate. Qed.

Lemma shutdown_reverse_order_witness :
  (move_refused (started (echo_robot "QoK"))
   = (started (echo_robot "QoK"), inl (TransportError "no safe position")) ∧
   shutdown_with demo_cmd move_refused true (started (echo_robot "QoK"))
   = (started (echo_robot "QoK"), inl (TransportError "no safe position"))) ∧
  ((move_home (started (echo_robot "QoK"))).2 = inr tt ∧
   ∃ st', shutdown_with demo_cmd move_home true (started (echo_robot "QoK")) = (st', inr tt) ∧
     servo st'.1 = false ∧ com_ctrl st'.1 = false ∧
     sent (calls st'.2)
     = ["OPEN"; "CNTLON"; "SRVON"; "HOME"; "SRVOFF"; "CNTLOFF"; "CLOSE"]) ∧
  (reliable (tcp (started (echo_robot "QoK")).1) ∧
   ∃ st', shutdown demo_cmd true (started (echo_robot "QoK")) = (st', inr tt) ∧
     servo st'.1 = false ∧ com_ctrl st'.1 = false ∧
     calls st'.2 = calls (started (echo_robot "QoK")).2
                   ++ [EvSend "SRVOFF"; EvReceive; EvSleep (pos_to_Qp 5);
                       EvSend "CNTLOFF"; EvReceive; EvSend "CLOSE"; EvReceive]) ∧
  (send (tcp (started (flaky_robot 6)).1) "SRVOFF" (chan (started (flaky_robot 6)).2)
   = (7%nat, Raises "connection lost") ∧
   servo (started (flaky_robot 6)).1 = true ∧
   ∃ w', shutdown demo_cmd true (started (flaky_robot 6))
         = (((started (flaky_robot 6)).1, w'), inl (TransportError "connection lost")) ∧
     calls w' = calls (started (flaky_robot 6)).2 ++ [EvSend "SRVOFF"] ∧
     (EvSend "CNTLOFF" ∉ [EvSend "SRVOFF"]) ∧ (EvSend "CLOSE" ∉ [EvSend "SRVOFF"])).
Proof.
  destruct (shutdown_reverse_order demo_cmd (started (echo_robot "QoK")).1
              (started (echo_robot "QoK")).2) as (Hraise & Hstep & Hstub & _).
  split; [|split; [|split]].
  - split; [reflexivity|].
    exact (Hraise move_refused _ (TransportError "no safe position") eq_refl).
  - split; [reflexivity|].
    destruct (Hstep move_home (move_home (started (echo_robot "QoK"))).1.1
                (move_home (started (echo_robot "QoK"))).1.2 eq_refl
                (echo_reliable "QoK"))
      as (st' & Hrun & Hsrv & Hcom & Hcalls).
    exists st'. split; [exact Hrun|]. split; [exact Hsrv|]. split; [exact Hcom|].
    rewrite Hcalls. reflexivity.
  - split; [apply echo_reliable|]. apply Hstub, echo_reliable.
  - split; [reflexivity|]. split; [reflexivity|].
    destruct (proj2 (proj2 (proj2 (shutdown_reverse_order demo_cmd
                                     (started (flaky_robot 6)).1
                                     (started (flaky_robot 6)).2)))
                7%nat "connection lost" eq_refl) as (w' & Hrun & Hcalls & Hno).
    exists w'. split; [exact Hrun|]. split; [exact Hcalls|].
    exact (Hno demo_cmd_distinct).
Defined.

Lemma change_servo_state_protocol_witness :
  servo (started (echo_robot "QoK")).1 = true ∧
  send (tcp (started (echo_robot "QoK")).1) "SRVOFF" (chan (started (echo_robot "QoK")).2)
  = (7%nat, Returns tt) ∧
  receive (tcp (started (echo_robot "QoK")).1) 7%nat = (8%nat, Returns "QoK") ∧
  (∃ st1, change_servo_state_with demo_cmd sleep_interrupted false
            (started (echo_robot "QoK"))
          = (st1, inl (TransportError "interrupted")) ∧
     servo st1.1 = true ∧
     calls st1.2 = calls (started (echo_robot "QoK")).2 ++ [EvSend "SRVOFF"; EvReceive]) ∧
  ∃ st', change_servo_state demo_cmd false (started (echo_robot "QoK")) = (st', inr tt) ∧
    servo st'.1 = false ∧
    calls st'.2 = calls (started (echo_robot "QoK")).2
                  ++ [EvSend "SRVOFF"; EvReceive; EvSleep (pos_to_Qp 5)].
Proof.
  split; [reflexivity|]. split; [reflexivity|]. split; [reflexivity|].
  destruct (change_servo_state_protocol demo_cmd (started (echo_robot "QoK")).1
              (started (echo_robot "QoK")).2 false 7%nat 8%nat tt "QoK"
              eq_refl eq_refl)
    as (_ & Hraise & st' & Hrun & Hsrv & _ & _ & Hcalls).
  split.
  - eexists. split; [exact (Hraise sleep_interrupted _ _ eq_refl)|].
    split; reflexivity.
  - exists st'. split; [exact Hrun|]. split; [exact Hsrv|exact Hcalls].
Defined.

Lemma maintenance_only_communication_witness :
  maintenance demo_cmd (echo_robot "QoK", world0)
  = ((maintenance demo_cmd (echo_robot "QoK", world0)).1, inr tt) ∧
  com_ctrl (maintenance demo_cmd (echo_robot "QoK", world0)).1.1 = true ∧
  servo (maintenance demo_cmd (echo_robot "QoK", world0)).1.1 = false ∧
  calls (maintenance demo_cmd (echo_robot "QoK", world0)).1.2
  = [EvSend "OPEN"; EvReceive; EvSend "CNTLON"; EvReceive] ∧
  ("SRVON" ∉ ["OPEN"; "CNTLON"]) ∧ ("SRVOFF" ∉ ["OPEN"; "CNTLON"]).
Proof.
  split; [reflexivity|].
  destruct (maintenance_only_communication demo_cmd (echo_robot "QoK") world0
              (maintenance demo_cmd (echo_robot "QoK", world0)).1 eq_refl)
    as (Hcom & Hsrv & _ & Hcalls & Hno).
  split; [exact Hcom|]. split; [exact Hsrv|]. split; [exact Hcalls|].
  exact (Hno demo_cmd_distinct).
Defined.




Lemma joints_fixed_at_construction_witness :
  (__init__ (echo_client "QoK") 6 world0).2 = inr (echo_robot "QoK") ∧
  1 ≤ 6 ∧
  (∀ s, s ∈ joints (echo_robot "QoK") ↔ ∃ i, 1 ≤ i ≤ 6 ∧ s = "J" +:+ pretty i) ∧
  size (joints (echo_robot "QoK")) = Z.to_nat 6 ∧
  (∀ cs w', joints (run_calls demo_cmd cs (echo_robot "QoK", w')).1.1
            = joints (echo_robot "QoK")).
Proof.
  split; [reflexivity|].
  apply (joints_fixed_at_construction demo_cmd (echo_client "QoK") 6 world0). reflexivity.
Defined.

Lemma flags_independent_of_payload_witness :
  same_but_payload eq (tcp (echo_robot "QoK")) (tcp (echo_robot "QeR")) ∧
  com_ctrl (run_calls demo_cmd [CallStart true; CallChangeServoState false; CallMaintenance]
              (echo_robot "QoK", world0)).1.1
  = com_ctrl (run_calls demo_cmd [CallStart true; CallChangeServoState false; CallMaintenance]
                (echo_robot "QeR", world0)).1.1 ∧
  servo (run_calls demo_cmd [CallStart true; CallChangeServoState false; CallMaintenance]
           (echo_robot "QoK", world0)).1.1
  = servo (run_calls demo_cmd [CallStart true; CallChangeServoState false; CallMaintenance]
             (echo_robot "QeR", world0)).1.1.
Proof.
  split; [apply echo_same_but_payload|].
  destruct (flags_independent_of_payload demo_cmd eq
              (tcp (echo_robot "QoK")) (tcp (echo_robot "QeR"))
              (echo_same_but_payload "QoK" "QeR")
              [CallStart true; CallChangeServoState false; CallMaintenance]
              (echo_robot "QoK") (echo_robot "QeR") world0 world0
              eq_refl eq_refl eq_refl eq_refl eq_refl eq_refl eq_refl)
    as (Hcom & Hsrv & _).
  split; [exact Hcom|exact Hsrv].
Defined.

(** ** Further properties of the session *)

Section Failures.

Context {T : Type}.
Variable MelfaCmd : Catalog.
Implicit Types (o : PyObject (T:=T)) (r : MelfaRobot (T:=T)) (w : World (T:=T))
  (st : State (T:=T)) (b : bool).

Lemma change_communication_state_outcome b r w :
  (change_communication_state MelfaCmd b (r, w)).2
  = match first_raised (com_outcomes MelfaCmd b r w) with
    | Some e => inl e
    | None => inr tt
    end ∧
  (change_communication_state MelfaCmd b (r, w)).1.1
  = (if (change_communication_state MelfaCmd b (r, w)).2 is inr _
     then with_flags r (servo r) b else r).
Proof. unfold com_outcomes, raised. destruct b; by client_cases. Qed.

Lemma change_servo_state_outcome b r w :
  (change_servo_state MelfaCmd b (r, w)).2
  = match first_raised (servo_outcomes MelfaCmd b r w) with
    | Some e => inl e
    | None => inr tt
    end ∧
  (change_servo_state MelfaCmd b (r, w)).1.1
  = (if (change_servo_state MelfaCmd b (r, w)).2 is inr _
     then with_flags r b (com_ctrl r) else r).
Proof. unfold servo_outcomes, raised. destruct b; by client_cases. Qed.

(** X1. The two primitive transitions raise exactly what the first of their
    calls on the client that fails raises (the client's own error, or the
    [TypeError] of an attribute that is not callable) and return when no call
    fails.  They write no flag unless they return: a call that raises leaves
    the robot object exactly as it was; a call that returns has changed its
    own flag to [b] and nothing else. *)
Theorem transitions_all_or_nothing b r w :
  (change_communication_state MelfaCmd b (r, w)).2
  = match first_raised (com_outcomes MelfaCmd b r w) with
    | Some e => inl e
    | None => inr tt
    end ∧
  (change_communication_state MelfaCmd b (r, w)).1.1
  = (if (change_communication_state MelfaCmd b (r, w)).2 is inr _
     then with_flags r (servo r) b else r) ∧
  (change_servo_state MelfaCmd b (r, w)).2
  = match first_raised (servo_outcomes MelfaCmd b r w) with
    | Some e => inl e
    | None => inr tt
    end ∧
  (change_servo_state MelfaCmd b (r, w)).1.1
  = (if (change_servo_state MelfaCmd b (r, w)).2 is inr _
     then with_flags r b (com_ctrl r) else r).
Proof.
  destruct (change_communication_state_outcome b r w) as [Hc1 Hc2].
  destruct (change_servo_state_outcome b r w) as [Hs1 Hs2].
  by repeat split.
Qed.

(** X6. [shutdown] does not roll back: when its servo-off step has returned
    and the release of control or the closing of communication raises, the
    call raises that error with [servo] already false and [com_ctrl] as it
    was before the call. *)
Theorem shutdown_no_rollback r w st1 st2 e safe_return :
  change_servo_state MelfaCmd false (r, w) = (st1, inr tt) →
  change_communication_state MelfaCmd false st1 = (st2, inl e) →
  shutdown MelfaCmd safe_return (r, w) = (st2, inl e) ∧
  servo st2.1 = false ∧ com_ctrl st2.1 = com_ctrl r ∧ joints st2.1 = joints r.
Proof.
  intros Hsrv Hcom.
  destruct (change_servo_state_inv _ _ _ _ _ Hsrv) as [Hr1 _].
  destruct st1 as [r1 w1].
  destruct (change_communication_state_outcome false r1 w1) as [_ Hraise].
  split.
  - unfold shutdown, shutdown_with.
    assert ((if safe_return then go_safe_pos else mret ()) (r, w) = ((r, w), inr tt)) as H0
      by by destruct safe_return.
    erewrite bind_returns by exact H0. erewrite bind_returns by exact Hsrv.
    exact Hcom.
  - rewrite Hcom in Hraise. simpl in Hraise, Hr1. by rewrite Hraise, Hr1.
Qed.

Lemma change_communication_state_raises_prefix b st :
  match (change_communication_state MelfaCmd b st).2 with
  | inl _ =>
      ∃ delta, calls (change_communication_state MelfaCmd b st).1.2 = calls st.2 ++ delta ∧
        delta `prefix_of` [EvSend (if b then COM_OPEN MelfaCmd else CNTL_OFF MelfaCmd);
                           EvReceive;
                           EvSend (if b then CNTL_ON MelfaCmd else COM_CLOSE MelfaCmd);
                           EvReceive]
  | inr _ => True
  end.
Proof.
  destruct b; client_cases; try done;
    (rewrite <- ?app_assoc; simpl; eexists; split; [reflexivity|by eexists]).
Qed.

Lemma com_outcomes_callable b r w e :
  callable (tcp r) →
  first_raised (com_outcomes MelfaCmd b r w) = Some e →
  ∃ x, e = TransportError x.
Proof.
  intros [Hs Hr]. unfold com_outcomes, raised. simpl.
  repeat match goal with
         | |- context [match ?x with
                       | Raises _ => _ | Returns _ => _ | NotCallable => _
                       end] =>
             let H := fresh in
             destruct x eqn:H; simpl;
             [| |first [by apply Hs in H | by apply Hr in H]]
         end;
    intros; simplify_eq; eauto.
Qed.

(** X7. When the communication step of [start] raises, [start] raises that
    error at once, and it is what the first failing call on the client
    raised, the client's own error when [send] and [receive] are callable:
    the robot object is untouched (both flags as before), and the client
    saw only a beginning of send COM_OPEN, receive, send CNTL_ON, receive;
    the servo step was not begun. *)
Theorem start_communication_step_raises r w st1 e safe_return :
  change_communication_state MelfaCmd true (r, w) = (st1, inl e) →
  start MelfaCmd safe_return (r, w) = (st1, inl e) ∧
  st1.1 = r ∧ first_raised (com_outcomes MelfaCmd true r w) = Some e ∧
  (callable (tcp r) → ∃ x, e = TransportError x) ∧
  ∃ delta, calls st1.2 = calls w ++ delta ∧
    delta `prefix_of` [EvSend (COM_OPEN MelfaCmd); EvReceive;
                       EvSend (CNTL_ON MelfaCmd); EvReceive].
Proof.
  intros Hcom.
  destruct (change_communication_state_outcome true r w) as [Hx Hr].
  pose proof (change_communication_state_raises_prefix true (r, w)) as Hpre.
  destruct (first_raised (com_outcomes MelfaCmd true r w)) as [e'|] eqn:Hfirst;
    rewrite Hcom in Hx, Hr, Hpre; simpl in Hx, Hr, Hpre; simplify_eq.
  split; [|split; [done|split; [done|split; [|done]]]].
  2: { intros Hc. by eapply com_outcomes_callable. } unfold start, start_with. by erewrite bind_raises.
Qed.

(** X8. [__init__] checks the client before the axes: an object without
    [send] or without [receive] gets the client message whatever the number
    of axes; with both methods there and a number of axes that is not
    positive it gets the axes message; and a robot that is built starts with
    [servo] and [com_ctrl] false and calls the object's own two methods. *)
Theorem init_error_precedence o n w :
  (hasattr_send o = false ∨ hasattr_receive o = false →
   __init__ o n w
   = (w, inl (TypeError "TCP-client does not implement required methods."))) ∧
  (hasattr_send o = true → hasattr_receive o = true → n ≤ 0 →
   __init__ o n w = (w, inl (TypeError "Illegal number of axes."))) ∧
  (∀ r, (__init__ o n w).2 = inr r →
   servo r = false ∧ com_ctrl r = false ∧
   attr_send o = Some (send (tcp r)) ∧ attr_receive o = Some (receive (tcp r))).
Proof.
  unfold __init__, hasattr_send, hasattr_receive.
  destruct (attr_send o) as [s|], (attr_receive o) as [rcv|]; simpl;
    (split; [|split]); try done; try (by intros [|]);
    destruct (Z.gtb_spec n 0); simpl; try done; try lia.
  by intros r [= <-].
Qed.

(** *** Shape of the calls of one method *)

(** X2. Whatever the client does, one method call only adds to the calls
    made on the client, and what it adds is half-duplex: every send is
    followed at once by its receive, unless the send is the last call, and
    there is no receive without a send just before.  A call that raises
    stopped at a call on the client: it did not sleep after the failure. *)
Theorem calls_half_duplex (call : Call) st :
  ∃ delta, calls (invoke MelfaCmd call st).1.2 = calls st.2 ++ delta ∧
    half_duplex delta = true ∧
    (∀ e, (invoke MelfaCmd call st).2 = inl e →
          ∃ pre ev, delta = pre ++ [ev] ∧ is_client_call ev = true).
Proof.
  destruct call as [[]|[]| |[]|[]| | | |]; simpl;
    unfold start, start_with, shutdown, shutdown_with, maintenance, go_safe_pos,
      reset_speed_factors,
      linear_move_poll, circular_move_poll;
    client_cases;
    first [ by exists []; rewrite app_nil_r
          | rewrite <- ?app_assoc; simpl;
            eexists; split; [reflexivity|]; split; [done|];
            intros err Herr;
            first [ discriminate Herr
                  | by eexists [], _
                  | by eexists [_], _
                  | by eexists [_; _], _
                  | by eexists [_; _; _], _
                  | by eexists [_; _; _; _], _
                  | by eexists [_; _; _; _; _], _
                  | by eexists [_; _; _; _; _; _], _
                  | by eexists [_; _; _; _; _; _; _], _
                  | by eexists [_; _; _; _; _; _; _; _], _
                  | by eexists [_; _; _; _; _; _; _; _; _], _ ] ].
Qed.

(** *** Servos on needs control *)



End Failures.

Section Composition.

Context {T : Type}.
Variable MelfaCmd : Catalog.
Implicit Types (r : MelfaRobot (T:=T)) (w : World (T:=T)) (call : Call).

Lemma with_flags_same r : with_flags r (servo r) (com_ctrl r) = r.
Proof. by destruct r. Qed.

Lemma invoke_reliable call r w :
  reliable (tcp r) →
  ∃ w', invoke MelfaCmd call (r, w)
        = ((with_flags r (flags_after call (servo r, com_ctrl r)).1
                         (flags_after call (servo r, com_ctrl r)).2, w'), inr tt).
Proof.
  intros Hrel. destruct call as [sr|sr| |b|b| | | |b]; simpl;
    try (eexists; by rewrite with_flags_same).
  - destruct (start_reliable MelfaCmd r w sr Hrel) as [t' ->]. by eexists.
  - destruct (shutdown_reliable MelfaCmd r w sr Hrel) as [t' ->]. by eexists.
  - destruct (change_communication_state_reliable MelfaCmd r w true Hrel) as [t' H].
    unfold maintenance. rewrite H. by eexists.
  - destruct (change_communication_state_reliable MelfaCmd r w b Hrel) as [t' ->].
    by eexists.
  - destruct (change_servo_state_reliable MelfaCmd r w b Hrel) as [t' ->]. by eexists.
Qed.

(** X5. With a client that never raises no method raises, and the two flags
    follow the calls alone: after any sequence of calls they are what the
    state machine [flags_after] gives, call by call, from the flags at the
    start.  Neither the world nor what [receive] returned plays a part. *)
Theorem reliable_client_state_machine (cs : list Call) r w :
  reliable (tcp r) →
  (run_calls MelfaCmd cs (r, w)).2 = replicate (length cs) (inr tt) ∧
  (servo (run_calls MelfaCmd cs (r, w)).1.1, com_ctrl (run_calls MelfaCmd cs (r, w)).1.1)
  = foldl (λ flags call, flags_after call flags) (servo r, com_ctrl r) cs.
Proof.
  revert r w. induction cs as [|call cs IH]; intros r w Hrel; simpl; [done|].
  destruct (invoke_reliable call r w Hrel) as [w' ->]. simpl.
  destruct (IH (with_flags r (flags_after call (servo r, com_ctrl r)).1
                            (flags_after call (servo r, com_ctrl r)).2) w' Hrel)
    as [-> ->].
  split; [done|]. simpl. by destruct (flags_after call (servo r, com_ctrl r)).
Qed.

(** X4. [start()] followed by [shutdown()], over a client that never raises
    and from a robot with both flags false, gives back the very same robot
    object; the client saw the six commands, each answered, in the order
    COM_OPEN, CNTL_ON, SRV_ON, SRV_OFF, CNTL_OFF, COM_CLOSE, with one settle
    sleep after each servo command. *)
Theorem start_shutdown_round_trip r w sr1 sr2 :
  reliable (tcp r) → servo r = false → com_ctrl r = false →
  ∃ w', (start MelfaCmd sr1 ;; shutdown MelfaCmd sr2) (r, w) = ((r, w'), inr tt) ∧
    calls w' = calls w ++ [EvSend (COM_OPEN MelfaCmd); EvReceive;
                           EvSend (CNTL_ON MelfaCmd); EvReceive;
                           EvSend (SRV_ON MelfaCmd); EvReceive;
                           EvSleep (SERVO_INIT_SEC MelfaCmd);
                           EvSend (SRV_OFF MelfaCmd); EvReceive;
                           EvSleep (SERVO_INIT_SEC MelfaCmd);
                           EvSend (CNTL_OFF MelfaCmd); EvReceive;
                           EvSend (COM_CLOSE MelfaCmd); EvReceive].
Proof.
  intros Hrel Hsrv Hcom.
  destruct (start_reliable MelfaCmd r w sr1 Hrel) as [t1 H1].
  edestruct (shutdown_reliable MelfaCmd (with_flags r true true)) as [t2 H2];
    [exact Hrel|].
  erewrite bind_returns by exact H1. rewrite H2.
  eexists. split.
  - f_equal. f_equal. destruct r; simpl in *. by subst.
  - simpl. by rewrite <- !app_assoc.
Qed.

End Composition.

(** ** The port check of the tests *)

Lemma string_app_nil s : "" +:+ s = s.
Proof. reflexivity. Qed.

Lemma string_app_cons a p s : String a p +:+ s = String a (p +:+ s).
Proof. reflexivity. Qed.

Lemma string_prefix_app p s :
  String.prefix p s = true ↔ ∃ post, s = p +:+ post.
Proof.
  revert s. induction p as [|a p IH]; intros s.
  - split; [intros _; by exists s|by destruct s].
  - destruct s as [|b s]; simpl.
    + split; [done|]. intros [post H]. by rewrite string_app_cons in H.
    + destruct (Ascii.ascii_dec a b) as [->|Hne].
      * rewrite IH. split; intros [post Hpost]; exists post.
        -- by rewrite string_app_cons, Hpost.
        -- rewrite string_app_cons in Hpost. by injection Hpost.
      * split; [done|]. intros [post H]. rewrite string_app_cons in H.
        injection H as H _. by destruct Hne.
Qed.

Lemma contains_app needle hay :
  contains needle hay = true ↔ ∃ pre post, hay = pre +:+ needle +:+ post.
Proof.
  induction hay as [|c hay IH]; cbn [contains].
  - rewrite orb_false_r, string_prefix_app. split.
    + intros [post ->]. by exists "", post.
    + intros ([|? pre] & post & H); [by exists post|].
      by rewrite string_app_cons in H.
  - rewrite orb_true_iff, string_prefix_app, IH. split.
    + intros [[post ->]|(pre & post & ->)].
      * by exists "", post.
      * by exists (String c pre), post.
    + intros ([|c' pre] & post & H).
      * left. by exists post.
      * right. rewrite string_app_cons in H. injection H as -> ->. by exists pre, post.
Qed.

(** X9. [validate_virtual_port_win] answers True exactly when some
    enumerated port has the asked name and a description in which "com0com"
    occurs; so never for an empty enumeration, and whatever the order of the
    ports. *)
Theorem validate_virtual_port_win_spec comports port_name :
  (validate_virtual_port_win comports port_name = true ↔
   ∃ dev pre post, dev ∈ comports ∧ device dev = port_name ∧
                   description dev = pre +:+ "com0com" +:+ post) ∧
  validate_virtual_port_win [] port_name = false ∧
  (∀ comports', comports' ≡ₚ comports →
     validate_virtual_port_win comports' port_name
     = validate_virtual_port_win comports port_name).
Proof.
  assert (∀ l, validate_virtual_port_win l port_name = true ↔
               ∃ dev pre post, dev ∈ l ∧ device dev = port_name ∧
                               description dev = pre +:+ "com0com" +:+ post) as Hspec.
  { induction l as [|d l IH]; simpl.
    - split; [done|]. intros (dev & _ & _ & Hin & _). by apply elem_of_nil in Hin.
    - destruct (bool_decide (port_name = device d) && contains "com0com" (description d))
        eqn:Hd.
      + split; [intros _|done].
        apply andb_prop in Hd as [Hname Hdesc].
        apply bool_decide_eq_true in Hname. apply contains_app in Hdesc as (pre & post & H).
        exists d, pre, post. split; [apply list_elem_of_here|done].
      + rewrite IH. split.
        * intros (dev & pre & post & Hin & Hrest).
          exists dev, pre, post. split; [by apply list_elem_of_further|done].
        * intros (dev & pre & post & Hin & Hname & Hdesc).
          apply elem_of_cons in Hin as [->|Hin]; [|by exists dev, pre, post].
          apply andb_false_iff in Hd as [Hd|Hd].
          -- apply bool_decide_eq_false in Hd. done.
          -- assert (contains "com0com" (description d) = true) as Hc
               by (apply contains_app; by exists pre, post).
             congruence. }
  split; [apply Hspec|]. split; [done|].
  intros comports' Hperm.
  destruct (validate_virtual_port_win comports port_name) eqn:H.
  - apply Hspec. apply Hspec in H as (dev & pre & post & Hin & Hrest).
    exists dev, pre, post. by rewrite Hperm.
  - destruct (validate_virtual_port_win comports' port_name) eqn:H'; [|done].
    apply Hspec in H' as (dev & pre & post & Hin & Hrest).
    rewrite Hperm in Hin. rewrite <- H. symmetry. apply Hspec. by exists dev, pre, post.
Qed.

Example validate_virtual_port_win_com0com :
  validate_virtual_port_win
    [ {| device := "COM1"; description := "Communications Port (COM1)" |};
      {| device := "COM5"; description := "com0com - serial port emulator (COM5)" |} ]
    "COM5" = true.
Proof. reflexivity. Qed.

(** A real port of the asked name does not pass, nor a virtual one of
    another name. *)
Example validate_virtual_port_win_rejects :
  validate_virtual_port_win
    [ {| device := "COM1"; description := "Communications Port (COM1)" |};
      {| device := "COM5"; description := "com0com - serial port emulator (COM5)" |} ]
    "COM1" = false ∧
  validate_virtual_port_win
    [ {| device := "COM5"; description := "com0com - serial port emulator (COM5)" |} ]
    "COM6" = false.
Proof. split; reflexivity. Qed.

(** The two calls left out of [safe_call] do break the invariant. *)
Example release_control_with_servos_on :
  servo (run_calls demo_cmd [CallStart true; CallChangeCommunicationState false]
           (echo_robot "QoK", world0)).1.1 = true ∧
  com_ctrl (run_calls demo_cmd [CallStart true; CallChangeCommunicationState false]
              (echo_robot "QoK", world0)).1.1 = false.
Proof. split; reflexivity. Qed.

Lemma transitions_all_or_nothing_witness :
  ((change_communication_state demo_cmd true (deaf_robot 3, world0)).2
   = inl (TransportError "timed out") ∧
   (change_communication_state demo_cmd true (deaf_robot 3, world0)).1.1 = deaf_robot 3) ∧
  ((change_servo_state demo_cmd true (none_robot, world0)).2 = inl not_callable ∧
   (change_servo_state demo_cmd true (none_robot, world0)).1.1 = none_robot) ∧
  ((change_servo_state demo_cmd true (echo_robot "QoK", world0)).2 = inr tt ∧
   (change_servo_state demo_cmd true (echo_robot "QoK", world0)).1.1
   = with_flags (echo_robot "QoK") true false).
Proof.
  destruct (transitions_all_or_nothing demo_cmd true (deaf_robot 3) world0)
    as (Hc1 & Hc2 & _).
  destruct (transitions_all_or_nothing demo_cmd true none_robot world0)
    as (_ & _ & Hn1 & Hn2).
  destruct (transitions_all_or_nothing demo_cmd true (echo_robot "QoK") world0)
    as (_ & _ & He1 & He2).
  split; [|split].
  - split; [exact Hc1|]. rewrite Hc2, Hc1. reflexivity.
  - split; [exact Hn1|]. rewrite Hn2, Hn1. reflexivity.
  - split; [exact He1|]. rewrite He2, He1. reflexivity.
Defined.

Lemma calls_half_duplex_witness :
  (start demo_cmd true (flaky_robot 4, world0)).2 = inl (TransportError "connection lost") ∧
  ∃ delta, calls (start demo_cmd true (flaky_robot 4, world0)).1.2 = calls world0 ++ delta ∧
    half_duplex delta = true ∧
    ∃ pre ev, delta = pre ++ [ev] ∧ is_client_call ev = true.
Proof.
  split; [reflexivity|].
  destruct (calls_half_duplex demo_cmd (CallStart true) (flaky_robot 4, world0))
    as (delta & Hcalls & Hhd & Hlast).
  exists delta. split; [exact Hcalls|]. split; [exact Hhd|].
  exact (Hlast (TransportError "connection lost") eq_refl).
Defined.


Lemma start_shutdown_round_trip_witness :
  reliable (tcp (echo_robot "QoK")) ∧
  ∃ w', (start demo_cmd true ;; shutdown demo_cmd true) (echo_robot "QoK", world0)
        = ((echo_robot "QoK", w'), inr tt) ∧
    calls w' = calls world0 ++ [EvSend "OPEN"; EvReceive; EvSend "CNTLON"; EvReceive;
                                EvSend "SRVON"; EvReceive; EvSleep (pos_to_Qp 5);
                                EvSend "SRVOFF"; EvReceive; EvSleep (pos_to_Qp 5);
                                EvSend "CNTLOFF"; EvReceive; EvSend "CLOSE"; EvReceive].
Proof.
  split; [apply echo_reliable|].
  apply (start_shutdown_round_trip demo_cmd (echo_robot "QoK") world0 true true);
    [apply echo_reliable|reflexivity|reflexivity].
Defined.

Lemma reliable_client_state_machine_witness :
  reliable (tcp (echo_robot "QoK")) ∧
  (run_calls demo_cmd [CallMaintenance; CallStart true; CallChangeCommunicationState false]
     (echo_robot "QoK", world0)).2 = [inr tt; inr tt; inr tt] ∧
  (servo (run_calls demo_cmd
            [CallMaintenance; CallStart true; CallChangeCommunicationState false]
            (echo_robot "QoK", world0)).1.1,
   com_ctrl (run_calls demo_cmd
               [CallMaintenance; CallStart true; CallChangeCommunicationState false]
               (echo_robot "QoK", world0)).1.1)
  = (true, false).
Proof.
  split; [apply echo_reliable|].
  apply (reliable_client_state_machine demo_cmd
           [CallMaintenance; CallStart true; CallChangeCommunicationState false]
           (echo_robot "QoK") world0), echo_reliable.
Defined.

Lemma shutdown_no_rollback_witness :
  servo (started (flaky_robot 8)).1 = true ∧
  com_ctrl (started (flaky_robot 8)).1 = true ∧
  (change_servo_state demo_cmd false (started (flaky_robot 8))).2 = inr tt ∧
  shutdown demo_cmd true ((started (flaky_robot 8)).1, (started (flaky_robot 8)).2)
  = ((change_communication_state demo_cmd false
        (change_servo_state demo_cmd false (started (flaky_robot 8))).1).1,
     inl (TransportError "connection lost")) ∧
  servo (change_communication_state demo_cmd false
           (change_servo_state demo_cmd false (started (flaky_robot 8))).1).1.1 = false ∧
  com_ctrl (change_communication_state demo_cmd false
              (change_servo_state demo_cmd false (started (flaky_robot 8))).1).1.1 = true.
Proof.
  split; [reflexivity|]. split; [reflexivity|]. split; [reflexivity|].
  destruct (shutdown_no_rollback demo_cmd
              (started (flaky_robot 8)).1 (started (flaky_robot 8)).2
              (change_servo_state demo_cmd false (started (flaky_robot 8))).1
              (change_communication_state demo_cmd false
                 (change_servo_state demo_cmd false (started (flaky_robot 8))).1).1
              (TransportError "connection lost") true eq_refl eq_refl)
    as (Hrun & Hsrv & Hcom & _).
  split; [exact Hrun|]. split; [exact Hsrv|exact Hcom].
Defined.

Lemma start_communication_step_raises_witness :
  start demo_cmd true (flaky_robot 2, world0)
  = ((change_communication_state demo_cmd true (flaky_robot 2, world0)).1,
     inl (TransportError "connection lost")) ∧
  (change_communication_state demo_cmd true (flaky_robot 2, world0)).1.1 = flaky_robot 2 ∧
  first_raised (com_outcomes demo_cmd true (flaky_robot 2) world0)
  = Some (TransportError "connection lost") ∧
  ∃ delta,
    calls (change_communication_state demo_cmd true (flaky_robot 2, world0)).1.2
    = calls world0 ++ delta ∧
    delta `prefix_of` [EvSend "OPEN"; EvReceive; EvSend "CNTLON"; EvReceive].
Proof.
  destruct (start_communication_step_raises demo_cmd (flaky_robot 2) world0
              (change_communication_state demo_cmd true (flaky_robot 2, world0)).1
              (TransportError "connection lost") true eq_refl)
    as (Hrun & Hr & Hfirst & _ & Hdelta).
  split; [exact Hrun|]. split; [exact Hr|]. split; [exact Hfirst|exact Hdelta].
Defined.

Lemma init_error_precedence_witness :
  __init__ mute_object 0 world0
  = (world0, inl (TypeError "TCP-client does not implement required methods.")) ∧
  __init__ (echo_client "QoK") 0 world0
  = (world0, inl (TypeError "Illegal number of axes.")) ∧
  (servo (echo_robot "QoK") = false ∧ com_ctrl (echo_robot "QoK") = false ∧
   attr_send (echo_client "QoK") = Some (send (tcp (echo_robot "QoK"))) ∧
   attr_receive (echo_client "QoK") = Some (receive (tcp (echo_robot "QoK")))).
Proof.
  split; [|split].
  - apply (proj1 (init_error_precedence mute_object 0 world0)). right. reflexivity.
  - apply (proj1 (proj2 (init_error_precedence (echo_client "QoK") 0 world0)));
      [reflexivity|reflexivity|lia].
  - apply (proj2 (proj2 (init_error_precedence (echo_client "QoK") 6 world0))).
    reflexivity.
Defined.

Lemma validate_virtual_port_win_spec_witness :
  [ {| device := "COM5"; description := "com0com - serial port emulator (COM5)" |};
    {| device := "COM1"; description := "Communications Port (COM1)" |} ]
  ≡ₚ [ {| device := "COM1"; description := "Communications Port (COM1)" |};
       {| device := "COM5"; description := "com0com - serial port emulator (COM5)" |} ] ∧
  validate_virtual_port_win
    [ {| device := "COM5"; description := "com0com - serial port emulator (COM5)" |};
      {| device := "COM1"; description := "Communications Port (COM1)" |} ] "COM5"
  = validate_virtual_port_win
      [ {| device := "COM1"; description := "Communications Port (COM1)" |};
        {| device := "COM5"; description := "com0com - serial port emulator (COM5)" |} ]
      "COM5".
Proof.
  split; [apply perm_swap|].
  apply (proj2 (proj2 (validate_virtual_port_win_spec
                         [ {| device := "COM1"; description := "Communications Port (COM1)" |};
                           {| device := "COM5";
                              description := "com0com - serial port emulator (COM5)" |} ]
                         "COM5"))), perm_swap.
Defined.
